(** * StudentRegistry: the student slice of the Redux store

    A shallow embedding of [src/lib/student-slice.ts] and the properties of
    its reducers.

    - A [Students] object is a finite map from property names to values, so
      that the object spread [{ _id: id, ...payload }] is a map union in which
      the payload wins.
    - The slice state is the record [StudentState]; list fields are immutable
      values, which is what the reducers observe under Immer (each property
      of the draft is copied on write, records are replaced and never
      mutated in place).
    - A reducer that dereferences a missing property throws a [TypeError];
      reducers return a [result], and [dispatch] keeps the previous state
      when the reducer throws.
    - [uuidv4()] is an effect: the identifier it returns is carried by the
      action ([AddNewStudent uuid payload]). *)

From Stdlib Require Import Ascii String ZArith.
From stdpp Require Import base option list strings gmap.

Local Open Scope string_scope.
Local Open Scope list_scope.

(** ** JavaScript strings: [toLowerCase] and [includes] *)

Module JsString.

(** [String.prototype.toLowerCase] on the ASCII range: [A]..[Z] are mapped
    to [a]..[z], every other code unit is kept. *)
Definition lower_ascii (c : ascii) : ascii :=
  let n := nat_of_ascii c in
  if (65 <=? n)%nat && (n <=? 90)%nat then ascii_of_nat (n + 32) else c.

Fixpoint toLowerCase (s : string) : string :=
  match s with
  | EmptyString => EmptyString
  | String c s' => String (lower_ascii c) (toLowerCase s')
  end.

(** [startsWith s t]: [t] is a prefix of [s]. *)
Fixpoint startsWith (s t : string) {struct t} : bool :=
  match t, s with
  | EmptyString, _ => true
  | String _ _, EmptyString => false
  | String b t', String a s' => bool_decide (a = b) && startsWith s' t'
  end.

(** [String.prototype.includes]: [t] occurs in [s] at some position. *)
Fixpoint includes (s t : string) : bool :=
  startsWith s t ||
  match s with
  | EmptyString => false
  | String _ s' => includes s' t
  end.

(** The relation that [includes] decides. *)
Definition substring_of (t s : string) : Prop :=
  ∃ pre post, s = pre +:+ t +:+ post.

(** "[s] contains [t] as a case-insensitive substring". *)
Definition contains_ci (s t : string) : Prop :=
  substring_of (toLowerCase t) (toLowerCase s).

End JsString.
Import JsString.

(** ** Data model *)

(** The values a property of a [Students] object holds: the interface
    declares strings and one number; the form hands over [null] for a
    control that is not in the form. *)
Inductive value : Type :=
| VStr (s : string)
| VNum (n : Z)
| VNull.

#[global] Instance value_eq_dec : EqDecision value.
Proof. solve_decision. Defined.

(** [interface Students]: every property is optional. *)
Abbreviation Students := (gmap string value).

(** [interface StudentState]; [currentStudent] is [null] when [None]. *)
Record StudentState : Type := mkState {
  filteredstudents : list Students;
  allstudents : list Students;
  currentStudent : option Students;
}.

(** [initialState]; [dummyData] comes from [@/utils/data/dummy-data], which
    is a parameter here. *)
Definition initialState (dummyData : list Students) : StudentState :=
  {| filteredstudents := dummyData;
     allstudents := dummyData;
     currentStudent := None |}.

(** ** Exceptions *)

Inductive exn : Type := TypeError.

Inductive result (A : Type) : Type :=
| Ok (a : A)
| Throw (e : exn).
Arguments Ok {A} a.
Arguments Throw {A} e.

Definition bind {A B : Type} (m : result A) (k : A → result B) : result B :=
  match m with
  | Ok a => k a
  | Throw e => Throw e
  end.

Notation "x ←! m ; k" := (bind m (λ x, k))
  (at level 100, m at next level, right associativity).

(** [Array.prototype.some] with a callback that may throw: stops at the
    first element for which the callback returns [true]. *)
Fixpoint array_some {A : Type} (f : A → result bool) (l : list A) : result bool :=
  match l with
  | [] => Ok false
  | x :: l' => b ←! f x; if b : bool then Ok true else array_some f l'
  end.

(** [Array.prototype.filter] with a callback that may throw. *)
Fixpoint array_filter {A : Type} (f : A → result bool) (l : list A)
  : result (list A) :=
  match l with
  | [] => Ok []
  | x :: l' =>
      b ←! f x;
      r ←! array_filter f l';
      Ok (if b : bool then x :: r else r)
  end.

(** [Array.prototype.find(...) ?? null]. *)
Fixpoint array_find {A : Type} (f : A → bool) (l : list A) : option A :=
  match l with
  | [] => None
  | x :: l' => if f x then Some x else array_find f l'
  end.

(** ** Reducers *)

(** [student._id === id], for a string [id]. *)
Definition id_is (id : string) (student : Students) : bool :=
  bool_decide (student !! "_id" = Some (VStr id)).

(** [{ _id: id, ...payload }]: the payload's own properties win. *)
Definition with_id (id : string) (payload : Students) : Students :=
  payload ∪ {[ "_id" := VStr id ]}.

(** [(student[field] as string).toLowerCase().includes(searchTerm)]: the
    method call throws when the property is not a string. *)
Definition field_includes (searchTerm : string) (student : Students)
    (field : string) : result bool :=
  match student !! field with
  | Some (VStr s) => Ok (includes (toLowerCase s) searchTerm)
  | _ => Throw TypeError
  end.

Definition search_fields : list string :=
  ["firstName"; "lastName"; "collegeName"].

(** The callback of the [filter] in [searchStudents]. *)
Definition student_matches (searchTerm : string) (student : Students)
  : result bool :=
  array_some (field_includes searchTerm student) search_fields.

Definition searchStudents (payload : string) (state : StudentState)
  : result StudentState :=
  let searchTerm := toLowerCase payload in
  filterStudents ←! array_filter (student_matches searchTerm) (allstudents state);
  Ok {| filteredstudents := filterStudents;
        allstudents := allstudents state;
        currentStudent := currentStudent state |}.

Definition selectedStudent (payload : string) (state : StudentState)
  : StudentState :=
  {| filteredstudents := filteredstudents state;
     allstudents := allstudents state;
     currentStudent := array_find (id_is payload) (allstudents state) |}.

Definition clearSelectedStudent (state : StudentState) : StudentState :=
  {| filteredstudents := filteredstudents state;
     allstudents := allstudents state;
     currentStudent := None |}.

(** [studentUuid] is what [uuidv4()] returned in this call. *)
Definition addNewStudent (studentUuid : string) (payload : Students)
    (state : StudentState) : StudentState :=
  let newStudent := with_id studentUuid payload in
  {| filteredstudents := filteredstudents state ++ [newStudent];
     allstudents := allstudents state ++ [newStudent];
     currentStudent := currentStudent state |}.

Definition updateStudentList (students : list Students) (id : string)
    (updatedStudent : Students) : list Students :=
  (λ student, if id_is id student then with_id id updatedStudent else student)
    <$> students.

Definition saveEditedStudent (id : string) (student : Students)
    (state : StudentState) : StudentState :=
  {| filteredstudents := updateStudentList (filteredstudents state) id student;
     allstudents := updateStudentList (allstudents state) id student;
     currentStudent := currentStudent state |}.

Definition deleteStudent (payload : string) (state : StudentState)
  : StudentState :=
  {| filteredstudents :=
       filter (λ student, id_is payload student = false) (filteredstudents state);
     allstudents :=
       filter (λ student, id_is payload student = false) (allstudents state);
     currentStudent := currentStudent state |}.

(** ** The store *)

Inductive Action : Type :=
| SearchStudents (payload : string)
| SelectedStudent (payload : string)
| ClearSelectedStudent
| AddNewStudent (studentUuid : string) (payload : Students)
| SaveEditedStudent (id : string) (student : Students)
| DeleteStudent (payload : string).

Definition reducer (state : StudentState) (a : Action) : result StudentState :=
  match a with
  | SearchStudents payload => searchStudents payload state
  | SelectedStudent payload => Ok (selectedStudent payload state)
  | ClearSelectedStudent => Ok (clearSelectedStudent state)
  | AddNewStudent studentUuid payload => Ok (addNewStudent studentUuid payload state)
  | SaveEditedStudent id student => Ok (saveEditedStudent id student state)
  | DeleteStudent payload => Ok (deleteStudent payload state)
  end.

(** [store.dispatch]: when the reducer throws, the exception reaches the
    caller and the store keeps its state. *)
Definition dispatch (state : StudentState) (a : Action) : StudentState :=
  match reducer state a with
  | Ok state' => state'
  | Throw _ => state
  end.

Definition run (actions : list Action) (state : StudentState) : StudentState :=
  foldl dispatch state actions.

(** The [_id] properties of a list of records, in order; [None] where the
    record has none. *)
Definition ids (students : list Students) : list (option value) :=
  (λ student : Students, student !! "_id") <$> students.

(** ** Sample records *)

Module Sample.

Definition ann : Students :=
  {[ "_id" := VStr "1"; "firstName" := VStr "Ann";
     "lastName" := VStr "Lee"; "collegeName" := VStr "X" ]}.

Definition bo : Students := {[ "firstName" := VStr "Bo" ]}.

(** The store after a search for "zz" and the addition of [bo], who has
    neither [lastName] nor [collegeName]. *)
Definition with_bo : StudentState :=
  run [SearchStudents "zz"; AddNewStudent "2" bo] (initialState [ann]).

Definition bob : Students :=
  {[ "firstName" := VStr "Bob"; "lastName" := VStr "Lee";
     "collegeName" := VStr "X" ]}.

Definition annie : Students := {[ "firstName" := VStr "Annie" ]}.

End Sample.

(** ** The student table ([StudentTable]) *)

(** [Array.prototype.map] with a callback that may throw. *)
Fixpoint array_map {A B : Type} (f : A → result B) (l : list A)
  : result (list B) :=
  match l with
  | [] => Ok []
  | x :: l' => y ←! f x; r ←! array_map f l'; Ok (y :: r)
  end.

Module StudentTable.

(** [String.prototype.toUpperCase] on one code unit of the ASCII range. *)
Definition upper_ascii (c : ascii) : ascii :=
  let n := nat_of_ascii c in
  if (97 <=? n)%nat && (n <=? 122)%nat then ascii_of_nat (n - 32) else c.

(** [str ? str[0].toUpperCase() + str.slice(1) : ''], on what
    [row.lastName!] may hold at run time: [undefined] ([None]), [null], the
    empty string and the number 0 are falsy; on any other number [str[0]]
    is [undefined] and the method call throws. *)
Definition capitalizeFirstLetter (str : option value) : result string :=
  match str with
  | None => Ok ""
  | Some VNull => Ok ""
  | Some (VStr EmptyString) => Ok ""
  | Some (VStr (String c rest)) => Ok (String (upper_ascii c) rest)
  | Some (VNum n) => if (n =? 0)%Z then Ok "" else Throw TypeError
  end.

(** A row handed to the data grid. *)
Record Row : Type := mkRow {
  id : option value;
  name : string;
  email : option value;
  contactNumber : option value;
  gender : option value;
  collegeName : option value;
  department : option value;
  hobbies : option value;
  dob : option value;
}.

(** The callback of the [map] in [rowsForDataGrid]; the template literal
    evaluates the last name first. *)
Definition row_of (row : Students) : result Row :=
  last ←! capitalizeFirstLetter (row !! "lastName");
  first ←! capitalizeFirstLetter (row !! "firstName");
  Ok {| id := row !! "_id";
        name := last +:+ " " +:+ first;
        email := row !! "email";
        contactNumber := row !! "contactNumber";
        gender := row !! "gender";
        collegeName := row !! "collegeName";
        department := row !! "department";
        hobbies := row !! "hobbies";
        dob := row !! "dob" |}.

(** [studentsData?.map(...).reverse()]. *)
Definition rowsForDataGrid (studentsData : list Students) : result (list Row) :=
  rows ←! array_map row_of studentsData;
  Ok (reverse rows).

(** [handleDeleteConfirm]: dispatches the removal of [deleteStudentId]. *)
Definition handleDeleteConfirm (deleteStudentId : string)
    (state : StudentState) : StudentState :=
  dispatch state (DeleteStudent deleteStudentId).

End StudentTable.

(** ** The form ([FormModel]) *)

Module FormModel.

(** [formData.get(name)]: the value of the control, [null] when the form
    has no control of that name. The form has text controls only. *)
Definition get (formData : gmap string string) (name : string) : value :=
  match formData !! name with
  | Some v => VStr v
  | None => VNull
  end.

(** The object literal [student] of [submitHandler]. *)
Definition student_of (formData : gmap string string) : Students :=
  {[ "firstName" := get formData "firstName";
     "middleName" := get formData "middleName";
     "lastName" := get formData "lastName";
     "email" := get formData "email";
     "contactNumber" := get formData "contactNumber";
     "gender" := get formData "gender";
     "collegeName" := get formData "collegeName";
     "department" := get formData "department";
     "dob" := get formData "dob";
     "hobbies" := get formData "hobbies" ]}.

(** The properties [newErrors] checks, each with its message. *)
Definition checked_fields : list (string * string) :=
  [ ("firstName", "*First name cannot be empty");
    ("middleName", "*Middle name cannot be empty");
    ("lastName", "*Last name cannot be empty");
    ("email", "*Email cannot be empty");
    ("contactNumber", "*Contact number cannot be empty");
    ("gender", "*Gender cannot be empty");
    ("collegeName", "*College name cannot be empty");
    ("department", "*Department cannot be empty");
    ("hobbies", "*Hobbies cannot be empty") ].

(** [newErrors]: [student.field === '' ? message : null], per property. *)
Definition newErrors (student : Students) : list (string * option string) :=
  (λ fm : string * string,
     (fm.1, if bool_decide (student !! fm.1 = Some (VStr ""))
            then Some fm.2 else None))
  <$> checked_fields.

(** [Object.values(newErrors).some((error) => error !== null)]. *)
Definition has_errors (errors : list (string * option string)) : bool :=
  existsb (λ e : string * option string, bool_decide (e.2 ≠ None)) errors.

(** [if (id)]: [undefined] and the empty string are falsy. *)
Definition truthy (id : option string) : option string :=
  match id with
  | Some (String c rest) => Some (String c rest)
  | _ => None
  end.

(** The action [submitHandler] dispatches, if any; [uuid] is what
    [uuidv4()] returns in the reducer of an add. *)
Definition submit_action (id : option string) (uuid : string)
    (formData : gmap string string) : option Action :=
  let student := student_of formData in
  if has_errors (newErrors student) then None
  else match truthy id with
       | Some id' => Some (SaveEditedStudent id' student)
       | None => Some (AddNewStudent uuid student)
       end.

(** [submitHandler]: the errors it sets and the state of the store after
    it. *)
Definition submitHandler (id : option string) (uuid : string)
    (formData : gmap string string) (state : StudentState)
  : list (string * option string) * StudentState :=
  (newErrors (student_of formData),
   match submit_action id uuid formData with
   | Some a => dispatch state a
   | None => state
   end).

(** The effect run when the form mounts: [if (id) dispatch(selectedStudent(id))]. *)
Definition on_mount (id : option string) (state : StudentState) : StudentState :=
  match truthy id with
  | Some id' => dispatch state (SelectedStudent id')
  | None => state
  end.

End FormModel.

(** ** Predicates of the statements *)

#[global] Instance exn_eq_dec : EqDecision exn.
Proof. solve_decision. Defined.

#[global] Instance result_eq_dec `{EqDecision A} : EqDecision (result A).
Proof. solve_decision. Defined.

(** A record carries the three searched properties, each a string. *)
Definition searchable (r : Students) : Prop :=
  ∀ f, f ∈ search_fields → ∃ v, r !! f = Some (VStr v).

(** The matching rule: one of [firstName], [lastName], [collegeName] is a
    string that contains [term] as a case-insensitive substring. A property
    that is absent contains nothing. *)
Definition matches (term : string) (r : Students) : Prop :=
  ∃ f v, f ∈ search_fields ∧ r !! f = Some (VStr v) ∧ contains_ci v term.

(** The record [{ _id: id, ...input }], described property by property. *)
Definition is_replacement (id : string) (input new : Students) : Prop :=
  new !! "_id" = Some (VStr id) ∧
  ∀ k, k ≠ "_id" → new !! k = input !! k.

(** Records of [students] whose [_id] is [id]. *)
Definition id_present (id : string) (students : list Students) : Prop :=
  ∃ r, r ∈ students ∧ id_is id r = true.

(** The filtered view is an order-preserving subsequence of the collection. *)
Definition view_inv (s : StudentState) : Prop :=
  filteredstudents s `sublist_of` allstudents s.


(** Every record of the collection carries the three searched properties. *)
Definition searchable_state (s : StudentState) : Prop :=
  ∀ r, r ∈ allstudents s → searchable r.

(** The payload of an add or an edit carries the three searched
    properties. *)
Definition searchable_action (a : Action) : Prop :=
  match a with
  | AddNewStudent _ payload => searchable payload
  | SaveEditedStudent _ student => searchable student
  | _ => True
  end.

(** Along a run, no payload has an [_id] and the identifier generated for
    each add is not an [_id] of the collection at that moment. *)
Fixpoint ids_fresh (actions : list Action) (s : StudentState) : Prop :=
  match actions with
  | [] => True
  | a :: rest =>
      match a with
      | AddNewStudent uuid payload =>
          payload !! "_id" = None ∧ ¬ id_present uuid (allstudents s)
      | SaveEditedStudent _ student => student !! "_id" = None
      | _ => True
      end ∧ ids_fresh rest (dispatch s a)
  end.

(** * Properties *)

(** ** The scenario of the search *)

Example search_an :
  filteredstudents (dispatch (initialState [Sample.ann]) (SearchStudents "an"))
  = [Sample.ann].
Proof. vm_compute. reflexivity. Qed.

Example search_zz :
  filteredstudents (dispatch (initialState [Sample.ann]) (SearchStudents "zz"))
  = [].
Proof. vm_compute. reflexivity. Qed.

(** ** Strings *)

Section strings.

Lemma toLowerCase_empty : toLowerCase "" = "".
Proof. reflexivity. Qed.

Lemma startsWith_spec (s t : string) :
  startsWith s t = true ↔ ∃ post, s = t +:+ post.
Proof.
  revert s. induction t as [|b t IH]; intros s; simpl.
  - split; [intros _; by exists s | done].
  - destruct s as [|a s]; simpl.
    + split; [done | intros [post Heq]; simpl in Heq; discriminate].
    + rewrite andb_true_iff, bool_decide_eq_true, IH. split.
      * intros [-> [post ->]]. by exists post.
      * intros [post Heq]. simpl in Heq. injection Heq as -> ->. eauto.
Qed.

Lemma includes_spec (s t : string) :
  includes s t = true ↔ substring_of t s.
Proof.
  unfold substring_of. induction s as [|a s IH]; simpl.
  - rewrite orb_false_r, startsWith_spec. split.
    + intros [post Heq]. by exists "", post.
    + intros [pre [post Heq]]. destruct pre; [by exists post | simpl in Heq; discriminate].
  - rewrite orb_true_iff, startsWith_spec, IH. split.
    + intros [[post Heq] | [pre [post Heq]]].
      * by exists "", post.
      * exists (String a pre), post. simpl. by rewrite Heq.
    + intros [[|c pre] [post Heq]]; simpl in Heq.
      * left. by exists post.
      * right. injection Heq as -> ->. by exists pre, post.
Qed.


Lemma includes_contains_ci (v term : string) :
  includes (toLowerCase v) (toLowerCase term) = true ↔ contains_ci v term.
Proof. apply includes_spec. Qed.

End strings.

(** ** Arrays with throwing callbacks *)

Section arrays.
Context {A : Type}.
Implicit Types (f : A → result bool) (l : list A).

Lemma exn_unique (e : exn) : e = TypeError.
Proof. by destruct e. Qed.

Lemma array_some_ok f l b :
  array_some f l = Ok b → (b = true ↔ ∃ x, x ∈ l ∧ f x = Ok true).
Proof.
  revert b. induction l as [|x l IH]; intros b; simpl.
  - intros [= <-]. split; [done | intros [x [Hx _]]; by apply elem_of_nil in Hx].
  - destruct (f x) as [[|]|e] eqn:Hfx; simpl; [| |done].
    + intros [= <-]. split; [intros _; exists x; split; [left | done] | done].
    + intros Hl. rewrite (IH _ Hl). split.
      * intros [y [Hy Hfy]]. exists y. split; [by right | done].
      * intros [y [Hy Hfy]]. apply elem_of_cons in Hy as [-> | Hy].
        -- congruence.
        -- by exists y.
Qed.

Lemma array_some_false f l :
  array_some f l = Ok false → ∀ x, x ∈ l → f x = Ok false.
Proof.
  induction l as [|y l IH]; simpl; intros H x Hx;
    [by apply elem_of_nil in Hx |].
  destruct (f y) as [[|]|e] eqn:Hfy; simpl in H; [done | | done].
  apply elem_of_cons in Hx as [-> | Hx]; [done | by apply IH].
Qed.

Lemma array_some_total f l :
  (∀ x, x ∈ l → ∃ b, f x = Ok b) → ∃ b, array_some f l = Ok b.
Proof.
  induction l as [|x l IH]; intros Hf; simpl; [by eexists |].
  destruct (Hf x) as [[|] ->]; [left | simpl; by eexists |]. simpl.
  apply IH. intros y Hy. apply Hf. by right.
Qed.

Context `{EqDecision A}.

Lemma array_filter_ok f l l' :
  array_filter f l = Ok l' → l' = filter (λ x, f x = Ok true) l.
Proof.
  revert l'. induction l as [|x l IH]; intros l'; simpl.
  - by intros [= <-].
  - destruct (f x) as [b|e] eqn:Hfx; simpl; [|done].
    destruct (array_filter f l) as [r|e] eqn:Hr; simpl; [|done].
    intros [= <-]. rewrite (IH r eq_refl).
    destruct b.
    + by rewrite filter_cons_True.
    + rewrite filter_cons_False; [done | congruence].
Qed.

Lemma array_filter_total f l :
  (∀ x, x ∈ l → ∃ b, f x = Ok b) → ∃ l', array_filter f l = Ok l'.
Proof.
  induction l as [|x l IH]; intros Hf; simpl; [by eexists |].
  destruct (Hf x) as [b ->]; [left |]. simpl.
  destruct IH as [r ->]; [intros y Hy; apply Hf; by right |].
  simpl. by eexists.
Qed.

Lemma array_filter_throw f l x :
  x ∈ l → f x = Throw TypeError → array_filter f l = Throw TypeError.
Proof.
  induction l as [|y l IH]; intros Hx Hfx; [by apply elem_of_nil in Hx |].
  simpl. destruct (f y) as [b|e] eqn:Hfy; simpl.
  - apply elem_of_cons in Hx as [-> | Hx]; [congruence |].
    by rewrite (IH Hx Hfx).
  - by rewrite (exn_unique e).
Qed.

Lemma array_filter_ok_defined f l l' x :
  array_filter f l = Ok l' → x ∈ l → ∃ b, f x = Ok b.
Proof.
  intros Hl Hx. destruct (f x) as [b|e] eqn:Hfx; [by eexists |].
  rewrite (exn_unique e) in Hfx.
  by rewrite (array_filter_throw _ _ _ Hx Hfx) in Hl.
Qed.

Lemma array_find_Some (p : A → bool) l x :
  array_find p l = Some x → x ∈ l ∧ p x = true.
Proof.
  induction l as [|y l IH]; simpl; [done |].
  destruct (p y) eqn:Hp.
  - intros [= <-]. split; [left | done].
  - intros H. destruct (IH H). split; [by right | done].
Qed.

Lemma array_find_None (p : A → bool) l :
  array_find p l = None ↔ ∀ x, x ∈ l → p x = false.
Proof.
  induction l as [|y l IH]; simpl.
  - split; [intros _ x Hx; by apply elem_of_nil in Hx | done].
  - destruct (p y) eqn:Hp.
    + split; [done | intros H; specialize (H y); rewrite Hp in H; discriminate H; left].
    + rewrite IH. split.
      * intros H x Hx. apply elem_of_cons in Hx as [-> | Hx]; auto.
      * intros H x Hx. apply H. by right.
Qed.

End arrays.

(** ** [searchStudents] *)

Section search.
Implicit Types (r : Students) (term t : string) (s : StudentState).

Lemma field_includes_true t r f :
  field_includes t r f = Ok true ↔
  ∃ v, r !! f = Some (VStr v) ∧ includes (toLowerCase v) t = true.
Proof.
  unfold field_includes. destruct (r !! f) as [[v|n|]|]; split;
    try (intros [= H]; eauto); try (intros [v' [[= ?] ?]]; subst; congruence);
    try (by intros [? [? ?]]); done.
Qed.

Lemma student_matches_ok term r b :
  student_matches (toLowerCase term) r = Ok b → (b = true ↔ matches term r).
Proof.
  intros H. rewrite (array_some_ok _ _ _ H). unfold matches. split.
  - intros [f [Hf [v [Hv Hi]]%field_includes_true]].
    exists f, v. by rewrite <- includes_contains_ci.
  - intros [f [v [Hf [Hv Hc]]]]. exists f. split; [done |].
    apply field_includes_true. exists v. by rewrite includes_contains_ci.
Qed.

Lemma student_matches_total t r :
  searchable r → ∃ b, student_matches t r = Ok b.
Proof.
  intros Hr. apply array_some_total. intros f Hf.
  destruct (Hr f Hf) as [v Hv]. unfold field_includes. rewrite Hv. by eexists.
Qed.

(** A record that lacks a searched property and does not match on the
    others makes the callback throw. *)
Lemma student_matches_throw term r f :
  f ∈ search_fields → r !! f = None → ¬ matches term r →
  student_matches (toLowerCase term) r = Throw TypeError.
Proof.
  intros Hf Hr Hm.
  destruct (student_matches (toLowerCase term) r) as [b|e] eqn:Hb;
    [|by rewrite (exn_unique e)].
  destruct b; [exfalso; by apply Hm, (student_matches_ok _ _ _ Hb) |].
  pose proof (array_some_false _ _ Hb f Hf) as H.
  unfold field_includes in H. by rewrite Hr in H.
Qed.

Lemma searchStudents_ok term s s' :
  searchStudents term s = Ok s' →
  allstudents s' = allstudents s ∧
  currentStudent s' = currentStudent s ∧
  filteredstudents s' =
    filter (λ r, student_matches (toLowerCase term) r = Ok true) (allstudents s).
Proof.
  unfold searchStudents.
  destruct (array_filter _ _) as [l|e] eqn:Hl; simpl; [|done].
  intros [= <-]. simpl. by rewrite (array_filter_ok _ _ _ Hl).
Qed.

(** When the search returns, the filtered view holds exactly the records
    that match, in the order of the collection. *)
Lemma searchStudents_filter_correct term s s' :
  searchStudents term s = Ok s' →
  filteredstudents s' `sublist_of` allstudents s ∧
  ∀ r, r ∈ filteredstudents s' ↔ r ∈ allstudents s ∧ matches term r.
Proof.
  intros Hs. pose proof Hs as (_ & _ & ->)%searchStudents_ok.
  split; [apply sublist_filter |].
  intros r. rewrite list_elem_of_filter. split.
  - intros [Hm Hr]. split; [done |]. by apply (student_matches_ok _ _ _ Hm).
  - intros [Hr Hm]. split; [|done].
    unfold searchStudents in Hs.
    destruct (array_filter _ _) as [l|e] eqn:Hl; [|done].
    destruct (array_filter_ok_defined _ _ _ _ Hl Hr) as [b Hb].
    rewrite Hb. f_equal. by apply (student_matches_ok _ _ _ Hb).
Qed.


(** On records that carry the three properties the search returns. *)
Lemma searchStudents_total term s :
  (∀ r, r ∈ allstudents s → searchable r) →
  ∃ s', searchStudents term s = Ok s'.
Proof.
  intros Hall. unfold searchStudents.
  destruct (array_filter_total (student_matches (toLowerCase term))
              (allstudents s)) as [l ->].
  - intros r Hr. by apply student_matches_total, Hall.
  - simpl. by eexists.
Qed.

Lemma searchStudents_throw term s r f :
  r ∈ allstudents s → f ∈ search_fields → r !! f = None →
  ¬ matches term r →
  searchStudents term s = Throw TypeError.
Proof.
  intros Hr Hf Hnone Hm. unfold searchStudents.
  by rewrite (array_filter_throw _ _ r Hr
                (student_matches_throw _ _ _ Hf Hnone Hm)).
Qed.

(** Deciding [matches] on a record by running the callback. *)
Lemma not_matches_by_run term r :
  student_matches (toLowerCase term) r = Ok false → ¬ matches term r.
Proof. intros H Hm. by apply (student_matches_ok _ _ _ H) in Hm. Qed.

Lemma not_matches_empty term : ¬ matches term ∅.
Proof. intros (f & v & _ & Hv & _). by rewrite lookup_empty in Hv. Qed.

End search.

(** ** Object spread and identifiers *)

Section records.
Implicit Types (r payload input : Students) (id uuid : string) (v : value).

Lemma with_id_lookup_id_None id payload :
  payload !! "_id" = None → with_id id payload !! "_id" = Some (VStr id).
Proof.
  intros H. unfold with_id. rewrite lookup_union, H, lookup_singleton_eq.
  done.
Qed.

Lemma with_id_lookup_id_Some id payload v :
  payload !! "_id" = Some v → with_id id payload !! "_id" = Some v.
Proof.
  intros H. unfold with_id. rewrite lookup_union, H, lookup_singleton_eq.
  done.
Qed.

Lemma with_id_lookup_ne id payload k :
  k ≠ "_id" → with_id id payload !! k = payload !! k.
Proof.
  intros H. unfold with_id.
  rewrite lookup_union, lookup_singleton_ne by done.
  by destruct (payload !! k).
Qed.

Lemma with_id_is_replacement id input :
  input !! "_id" = None → is_replacement id input (with_id id input).
Proof.
  intros H. split; [by apply with_id_lookup_id_None |].
  intros k Hk. by apply with_id_lookup_ne.
Qed.

Lemma id_is_true id r : id_is id r = true ↔ r !! "_id" = Some (VStr id).
Proof. unfold id_is. apply bool_decide_eq_true. Qed.

Lemma id_is_false id r : id_is id r = false ↔ r !! "_id" ≠ Some (VStr id).
Proof. unfold id_is. apply bool_decide_eq_false. Qed.

Lemma id_is_with_id id input :
  input !! "_id" = None → id_is id (with_id id input) = true.
Proof. intros H. by apply id_is_true, with_id_lookup_id_None. Qed.

Lemma not_id_present id (l : list Students) :
  ¬ id_present id l ↔ ∀ r, r ∈ l → id_is id r = false.
Proof.
  unfold id_present. split.
  - intros H r Hr. destruct (id_is id r) eqn:E; [|done].
    exfalso. apply H. by exists r.
  - intros H [r [Hr E]]. rewrite (H r Hr) in E. done.
Qed.

End records.

(** ** [updateStudentList] and the list filters *)

Section lists.
Implicit Types (l : list Students) (r input : Students) (id : string).

Lemma updateStudentList_length l id input :
  length (updateStudentList l id input) = length l.
Proof. unfold updateStudentList. apply length_fmap. Qed.

Lemma updateStudentList_lookup l id input i r :
  l !! i = Some r →
  updateStudentList l id input !! i
  = Some (if id_is id r then with_id id input else r).
Proof.
  intros H. unfold updateStudentList. by rewrite list_lookup_fmap, H.
Qed.

Lemma updateStudentList_absent l id input :
  (∀ r, r ∈ l → id_is id r = false) → updateStudentList l id input = l.
Proof.
  induction l as [|r l IH]; intros H; [done |].
  unfold updateStudentList in *. rewrite fmap_cons.
  rewrite (H r) by left. f_equal. apply IH. intros r' Hr'. apply H. by right.
Qed.

Lemma updateStudentList_sublist l1 l2 id input :
  l1 `sublist_of` l2 →
  updateStudentList l1 id input `sublist_of` updateStudentList l2 id input.
Proof. intros H. unfold updateStudentList. by apply fmap_sublist. Qed.

Lemma array_find_updateStudentList l id input :
  input !! "_id" = None → id_present id l →
  array_find (id_is id) (updateStudentList l id input)
  = Some (with_id id input).
Proof.
  intros Hin [r [Hr Hid]].
  induction l as [|r0 l IH]; [by apply elem_of_nil in Hr |].
  unfold updateStudentList in *. rewrite fmap_cons. simpl.
  destruct (id_is id r0) eqn:E0.
  - by rewrite id_is_with_id.
  - rewrite E0. apply IH.
    apply elem_of_cons in Hr as [-> | Hr]; [congruence | done].
Qed.

Lemma filter_id_absent l id :
  (∀ r, r ∈ l → id_is id r = false) →
  filter (λ r, id_is id r = false) l = l.
Proof.
  induction l as [|r l IH]; intros H; [done |].
  rewrite filter_cons_True by (apply H; left).
  f_equal. apply IH. intros r' Hr'. apply H. by right.
Qed.

Lemma filter_id_sublist l1 l2 id :
  l1 `sublist_of` l2 →
  filter (λ r, id_is id r = false) l1
    `sublist_of` filter (λ r, id_is id r = false) l2.
Proof.
  induction 1 as [|x l1 l2 _ IH|x l1 l2 _ IH]; [done | |].
  - rewrite !filter_cons. destruct (decide _); [by constructor | done].
  - rewrite (filter_cons _ x l2).
    destruct (decide _); [by constructor | done].
Qed.

Lemma filter_id_idemp l id :
  filter (λ r, id_is id r = false) (filter (λ r, id_is id r = false) l)
  = filter (λ r, id_is id r = false) l.
Proof.
  apply filter_id_absent. intros r Hr.
  by apply list_elem_of_filter in Hr as [? _].
Qed.

End lists.

(** ** The view invariant *)

Section invariant.

Lemma initialState_inv dummyData : view_inv (initialState dummyData).
Proof. unfold view_inv. simpl. reflexivity. Qed.

Lemma reducer_inv s a s' : view_inv s → reducer s a = Ok s' → view_inv s'.
Proof.
  unfold view_inv. intros Hs.
  destruct a as [term|id| |uuid payload|id student|id]; simpl.
  - intros H. destruct (searchStudents_filter_correct _ _ _ H) as [Hsub _].
    by destruct (searchStudents_ok _ _ _ H) as [-> _].
  - by intros [= <-].
  - by intros [= <-].
  - intros [= <-]. simpl. by apply sublist_app.
  - intros [= <-]. simpl. by apply updateStudentList_sublist.
  - intros [= <-]. simpl. by apply filter_id_sublist.
Qed.

Lemma dispatch_inv s a : view_inv s → view_inv (dispatch s a).
Proof.
  intros Hs. unfold dispatch. destruct (reducer s a) as [s'|e] eqn:H; [|done].
  by apply (reducer_inv s a).
Qed.

Lemma run_inv actions s : view_inv s → view_inv (run actions s).
Proof.
  revert s. induction actions as [|a actions IH]; intros s Hs; [done |].
  simpl. apply IH. by apply dispatch_inv.
Qed.

End invariant.

(** * The claims *)

(** ** Search *)

(** C1. The filter rule of the search, at a collection in which a record
    lacks a searched property: [ann] is in the collection and her first
    name contains "an", yet after the search for "an" she is not in the
    filtered view, because the reducer threw on [bo] and the store kept the
    view of the previous search. On collections whose records carry the
    three properties the rule holds: [searchStudents_total],
    [searchStudents_filter_correct], [searchStudents_empty]. *)
Theorem search_filter_broken_by_missing_field :
  reducer Sample.with_bo (SearchStudents "an") = Throw TypeError ∧
  let s' := dispatch Sample.with_bo (SearchStudents "an") in
  Sample.ann ∈ allstudents s' ∧
  matches "an" Sample.ann ∧
  Sample.ann ∉ filteredstudents s'.
Proof.
  split; [vm_compute; reflexivity |].
  cbv zeta. split; [|split].
  - assert (allstudents (dispatch Sample.with_bo (SearchStudents "an"))
            = [Sample.ann; with_id "2" Sample.bo]) as ->
      by (vm_compute; reflexivity).
    left.
  - apply (student_matches_ok "an" Sample.ann true); [|done].
    vm_compute. reflexivity.
  - assert (filteredstudents (dispatch Sample.with_bo (SearchStudents "an"))
            = [with_id "2" Sample.bo]) as ->
      by (vm_compute; reflexivity).
    intros H%list_elem_of_singleton%(f_equal (λ r : Students, r !! "lastName")).
    vm_compute in H. discriminate H.
Qed.

(** C4. A search over a collection in which some record lacks one of
    [firstName], [lastName], [collegeName] and does not match the term on
    the others throws a [TypeError] instead of treating the missing
    property as the empty string; the store keeps its state. *)
Theorem search_throws_on_missing_field (term : string) (s : StudentState)
    (r : Students) (f : string) :
  r ∈ allstudents s →
  f ∈ search_fields →
  r !! f = None →
  ¬ matches term r →
  reducer s (SearchStudents term) = Throw TypeError ∧
  dispatch s (SearchStudents term) = s.
Proof.
  intros Hr Hf Hnone Hm. unfold dispatch. simpl.
  by rewrite (searchStudents_throw term s r f Hr Hf Hnone Hm).
Qed.

Lemma search_throws_on_missing_field_witness :
  reducer Sample.with_bo (SearchStudents "an") = Throw TypeError ∧
  dispatch Sample.with_bo (SearchStudents "an") = Sample.with_bo.
Proof.
  apply (search_throws_on_missing_field "an" Sample.with_bo
           (with_id "2" Sample.bo) "lastName").
  - vm_compute. right. left.
  - unfold search_fields. right. left.
  - vm_compute. reflexivity.
  - intros (f & v & Hf & Hv & Hc). unfold search_fields in Hf.
    apply includes_contains_ci in Hc.
    repeat (apply elem_of_cons in Hf as [-> | Hf]); vm_compute in Hv;
      [| discriminate Hv | discriminate Hv | by apply elem_of_nil in Hf].
    injection Hv as <-. vm_compute in Hc. discriminate Hc.
Defined.

(** ** Add *)

(** C2, as stated, fails: after a search for "zz" the filtered view is
    empty; adding [bob], who does not match "zz", puts him in the filtered
    view all the same. *)
Lemma add_ignores_search_term :
  let s := run [SearchStudents "zz"] (initialState [Sample.ann]) in
  let s' := dispatch s (AddNewStudent "2" Sample.bob) in
  Sample.bob !! "_id" = None ∧
  filteredstudents s = [] ∧
  ¬ matches "zz" (with_id "2" Sample.bob) ∧
  filteredstudents s' = [with_id "2" Sample.bob] ∧
  filteredstudents s' ≠ filteredstudents s.
Proof.
  cbv zeta. split; [vm_compute; reflexivity |].
  split; [vm_compute; reflexivity |].
  split; [apply not_matches_by_run; vm_compute; reflexivity |].
  split; [vm_compute; reflexivity |].
  vm_compute. discriminate.
Qed.

(** C2, amended. For every state and every payload without an [_id], add
    never throws and appends the record [{ _id: uuid, ...payload }] to the
    end of the collection and to the end of the filtered view, whatever the
    last search term was; the selection is kept. *)
Theorem addNewStudent_appends_to_both (uuid : string) (payload : Students)
    (s : StudentState) :
  payload !! "_id" = None →
  ∃ newStudent s',
    reducer s (AddNewStudent uuid payload) = Ok s' ∧
    is_replacement uuid payload newStudent ∧
    allstudents s' = allstudents s ++ [newStudent] ∧
    filteredstudents s' = filteredstudents s ++ [newStudent] ∧
    currentStudent s' = currentStudent s.
Proof.
  intros Hid. exists (with_id uuid payload), (addNewStudent uuid payload s).
  split; [done |]. split; [by apply with_id_is_replacement | done].
Qed.

Lemma addNewStudent_appends_to_both_witness :
  ∃ newStudent s',
    reducer (initialState [Sample.ann]) (AddNewStudent "2" Sample.bo) = Ok s' ∧
    is_replacement "2" Sample.bo newStudent ∧
    allstudents s' = allstudents (initialState [Sample.ann]) ++ [newStudent] ∧
    filteredstudents s'
      = filteredstudents (initialState [Sample.ann]) ++ [newStudent] ∧
    currentStudent s' = currentStudent (initialState [Sample.ann]).
Proof.
  apply (addNewStudent_appends_to_both "2" Sample.bo (initialState [Sample.ann])).
  vm_compute. reflexivity.
Defined.

(** ** Edit *)

(** C3, as stated, fails: [ann] is in the filtered view of the search for
    "an"; after her record is replaced by [bob]'s fields it is still in the
    filtered view, while the search for "an" over the updated collection
    finds nothing. *)
Lemma edit_does_not_recompute_filter :
  let s := run [SearchStudents "an"] (initialState [Sample.ann]) in
  let s' := dispatch s (SaveEditedStudent "1" Sample.bob) in
  filteredstudents s = [Sample.ann] ∧
  filteredstudents s' = [with_id "1" Sample.bob] ∧
  ∃ s'', searchStudents "an" s' = Ok s'' ∧
         filteredstudents s'' = [] ∧
         filteredstudents s' ≠ filteredstudents s''.
Proof.
  cbv zeta. split; [vm_compute; reflexivity |].
  split; [vm_compute; reflexivity |].
  eexists. split; [vm_compute; reflexivity |].
  split; [reflexivity |]. vm_compute. discriminate.
Qed.

(** C3, amended. For every state, id and payload, edit never throws and
    maps the filtered view position by position: a record whose [_id] is
    the id is replaced by [{ _id: id, ...input }], every other record is
    kept, and no record enters or leaves the view. *)
Theorem saveEditedStudent_maps_filtered (id : string) (input : Students)
    (s : StudentState) :
  ∃ s',
    reducer s (SaveEditedStudent id input) = Ok s' ∧
    length (filteredstudents s') = length (filteredstudents s) ∧
    ∀ i r, filteredstudents s !! i = Some r →
      filteredstudents s' !! i
      = Some (if id_is id r then with_id id input else r).
Proof.
  exists (saveEditedStudent id input s). split; [done |]. simpl.
  split; [apply updateStudentList_length |].
  intros i r. apply updateStudentList_lookup.
Qed.

Lemma saveEditedStudent_maps_filtered_witness :
  ∃ s',
    reducer (initialState [Sample.ann]) (SaveEditedStudent "1" Sample.bob)
      = Ok s' ∧
    filteredstudents s' !! 0%nat = Some (with_id "1" Sample.bob).
Proof.
  destruct (saveEditedStudent_maps_filtered "1" Sample.bob
              (initialState [Sample.ann])) as (s' & Hs' & _ & Hmap).
  exists s'. split; [done |].
  apply (Hmap 0%nat Sample.ann). reflexivity.
Defined.

(** C5. In a state whose filtered view is a subsequence of the collection,
    edit with a payload that has no [_id] keeps the length of the
    collection, replaces every record whose [_id] is the id by a record
    whose [_id] is the id and whose other properties are exactly those of
    the payload (a property of the old record that the payload lacks is
    gone), keeps every other record, and changes nothing at all when no
    record has the id. *)
Theorem saveEditedStudent_replaces_wholesale (id : string) (input : Students)
    (s : StudentState) :
  view_inv s →
  input !! "_id" = None →
  let s' := saveEditedStudent id input s in
  reducer s (SaveEditedStudent id input) = Ok s' ∧
  length (allstudents s') = length (allstudents s) ∧
  (∀ i r, allstudents s !! i = Some r →
     ∃ r', allstudents s' !! i = Some r' ∧
       if id_is id r
       then is_replacement id input r' ∧
            ∀ k, k ≠ "_id" → input !! k = None → r' !! k = None
       else r' = r) ∧
  (¬ id_present id (allstudents s) → s' = s).
Proof.
  intros Hinv Hin. cbv zeta. split; [done |]. simpl.
  split; [apply updateStudentList_length |]. split.
  - intros i r Hr. eexists. split; [by apply updateStudentList_lookup |].
    destruct (id_is id r); [|done].
    split; [by apply with_id_is_replacement |].
    intros k Hk Hnone. by rewrite with_id_lookup_ne.
  - intros Hnot. pose proof (proj1 (not_id_present _ _) Hnot) as Habs.
    unfold saveEditedStudent.
    rewrite (updateStudentList_absent (allstudents s)) by done.
    rewrite (updateStudentList_absent (filteredstudents s)).
    + by destruct s.
    + intros r Hr. apply Habs. by apply (elem_of_sublist _ _ _ Hr).
Qed.

Lemma saveEditedStudent_replaces_wholesale_witness :
  (∃ r', allstudents (saveEditedStudent "1" Sample.annie
                        (initialState [Sample.ann])) !! 0%nat = Some r' ∧
         is_replacement "1" Sample.annie r' ∧
         r' !! "lastName" = None) ∧
  saveEditedStudent "7" Sample.annie (initialState [Sample.ann])
  = initialState [Sample.ann].
Proof.
  split.
  - destruct (saveEditedStudent_replaces_wholesale "1" Sample.annie
                (initialState [Sample.ann])) as (_ & _ & Hrep & _).
    + apply initialState_inv.
    + vm_compute. reflexivity.
    + destruct (Hrep 0%nat Sample.ann eq_refl) as (r' & Hr' & Hnew).
      change (id_is "1" Sample.ann) with true in Hnew.
      destruct Hnew as [Hnew Hdrop].
      exists r'. split; [done |]. split; [done |].
      apply Hdrop; [discriminate | vm_compute; reflexivity].
  - apply (saveEditedStudent_replaces_wholesale "7" Sample.annie
             (initialState [Sample.ann])).
    + apply initialState_inv.
    + vm_compute. reflexivity.
    + intros [r [Hr Hid]]. apply list_elem_of_singleton in Hr as ->.
      vm_compute in Hid. discriminate Hid.
Defined.

(** ** The filtered view *)

(** C6. In every state reached from the initial state, whatever the seed,
    by any sequence of search, select, clear-selection, add, edit and
    remove actions, the filtered view is an order-preserving subsequence
    of the collection. *)
Theorem filtered_sublist_of_all (dummyData : list Students)
    (actions : list Action) :
  filteredstudents (run actions (initialState dummyData))
    `sublist_of` allstudents (run actions (initialState dummyData)).
Proof. apply run_inv, initialState_inv. Qed.

(** ** Selection *)

(** C7, as stated, fails: with [ann] selected, editing her record leaves
    the selection holding the content from before the edit. *)
Lemma selection_is_a_snapshot :
  let s := run [SelectedStudent "1"] (initialState [Sample.ann]) in
  let s' := dispatch s (SaveEditedStudent "1" Sample.annie) in
  currentStudent s = Some Sample.ann ∧
  allstudents s' = [with_id "1" Sample.annie] ∧
  currentStudent s' = Some Sample.ann ∧
  currentStudent s' ≠ Some (with_id "1" Sample.annie).
Proof.
  cbv zeta. repeat split; try (vm_compute; reflexivity).
  intros H%(f_equal (λ o : option Students, o ≫= (.!! "lastName"))).
  vm_compute in H. discriminate H.
Qed.

(** C7, amended. Edit leaves the selection as it was; when the id is in
    the collection and the payload has no [_id], selecting the id again
    after the edit yields the edited record [{ _id: id, ...input }]. *)
Theorem selection_after_edit (id : string) (input : Students)
    (s : StudentState) :
  input !! "_id" = None →
  id_present id (allstudents s) →
  let s' := saveEditedStudent id input s in
  currentStudent s' = currentStudent s ∧
  currentStudent (selectedStudent id s') = Some (with_id id input).
Proof.
  intros Hin Hid. cbv zeta. split; [done |]. simpl.
  by apply array_find_updateStudentList.
Qed.

Lemma selection_after_edit_witness :
  let s := selectedStudent "1" (initialState [Sample.ann]) in
  let s' := saveEditedStudent "1" Sample.annie s in
  currentStudent s' = currentStudent s ∧
  currentStudent (selectedStudent "1" s') = Some (with_id "1" Sample.annie).
Proof.
  apply (selection_after_edit "1" Sample.annie
           (selectedStudent "1" (initialState [Sample.ann]))).
  - vm_compute. reflexivity.
  - exists Sample.ann. split; [simpl; left | vm_compute; reflexivity].
Defined.

(** ** Identifiers *)

Section identifiers.

Lemma ids_app (l1 l2 : list Students) : ids (l1 ++ l2) = ids l1 ++ ids l2.
Proof. unfold ids. apply fmap_app. Qed.


End identifiers.



(** [addNewStudent] itself does not compare the new identifier with the
    ones in the collection: distinctness rests on [uuidv4()]. *)
Example addNewStudent_no_collision_check :
  ids (allstudents (addNewStudent "1" Sample.bo (initialState [Sample.ann])))
  = [Some (VStr "1"); Some (VStr "1")].
Proof. vm_compute. reflexivity. Qed.

(** ** Remove *)

(** C9. In a state whose filtered view is a subsequence of the collection,
    remove never throws, keeps in the collection and in the filtered view
    exactly the records whose [_id] is not the id, in their order, keeps
    the selection, changes nothing when no record has the id, and a second
    remove of the same id changes nothing more. *)
Theorem deleteStudent_removes_idempotent (id : string) (s : StudentState) :
  view_inv s →
  let s' := deleteStudent id s in
  reducer s (DeleteStudent id) = Ok s' ∧
  (∀ r, r ∈ allstudents s' ↔ r ∈ allstudents s ∧ id_is id r = false) ∧
  (∀ r, r ∈ filteredstudents s' ↔
        r ∈ filteredstudents s ∧ id_is id r = false) ∧
  allstudents s' `sublist_of` allstudents s ∧
  filteredstudents s' `sublist_of` filteredstudents s ∧
  currentStudent s' = currentStudent s ∧
  (¬ id_present id (allstudents s) → s' = s) ∧
  deleteStudent id s' = s'.
Proof.
  intros Hinv. cbv zeta. split; [done |]. simpl.
  split; [intros r; rewrite list_elem_of_filter; tauto |].
  split; [intros r; rewrite list_elem_of_filter; tauto |].
  split; [apply sublist_filter |]. split; [apply sublist_filter |].
  split; [done |]. split.
  - intros Hnot. pose proof (proj1 (not_id_present _ _) Hnot) as Habs.
    unfold deleteStudent.
    rewrite (filter_id_absent (allstudents s)) by done.
    rewrite (filter_id_absent (filteredstudents s)).
    + by destruct s.
    + intros r Hr. apply Habs. by apply (elem_of_sublist _ _ _ Hr).
  - unfold deleteStudent. simpl. by rewrite !filter_id_idemp.
Qed.

Lemma deleteStudent_removes_idempotent_witness :
  let s := initialState [Sample.ann; with_id "2" Sample.bob] in
  allstudents (deleteStudent "1" s) = [with_id "2" Sample.bob] ∧
  deleteStudent "7" s = s ∧
  deleteStudent "1" (deleteStudent "1" s) = deleteStudent "1" s.
Proof.
  cbv zeta.
  destruct (deleteStudent_removes_idempotent "1"
              (initialState [Sample.ann; with_id "2" Sample.bob])
              (initialState_inv _)) as (_ & _ & _ & _ & _ & _ & _ & Hidem).
  destruct (deleteStudent_removes_idempotent "7"
              (initialState [Sample.ann; with_id "2" Sample.bob])
              (initialState_inv _)) as (_ & _ & _ & _ & _ & _ & Hnoop & _).
  split; [vm_compute; reflexivity |]. split; [|exact Hidem].
  apply Hnoop. intros [r [Hr Hid]].
  repeat (apply elem_of_cons in Hr as [-> | Hr]);
    [vm_compute in Hid; discriminate Hid | vm_compute in Hid; discriminate Hid |
     by apply elem_of_nil in Hr].
Defined.

(** ** Payloads that carry an [_id] *)

(** C10. When the payload has an [_id] property, the record that add
    appends carries the payload's [_id] and not the generated one, and
    every record that edit replaces carries the payload's [_id] and not the
    id it was located by; in particular an add whose payload repeats an
    [_id] of the collection leaves the [_id]s not pairwise distinct. *)
Theorem payload_id_overrides (uuid id : string) (v : value)
    (payload : Students) (s : StudentState) :
  payload !! "_id" = Some v →
  (∃ newStudent,
     allstudents (addNewStudent uuid payload s)
       = allstudents s ++ [newStudent] ∧
     newStudent !! "_id" = Some v) ∧
  (∀ i r, allstudents s !! i = Some r → id_is id r = true →
     ∃ r', allstudents (saveEditedStudent id payload s) !! i = Some r' ∧
           r' !! "_id" = Some v) ∧
  (Some v ∈ ids (allstudents s) →
   ¬ NoDup (ids (allstudents (addNewStudent uuid payload s)))).
Proof.
  intros Hv. split; [|split].
  - exists (with_id uuid payload). split; [done |].
    by apply with_id_lookup_id_Some.
  - intros i r Hr Hid. eexists. simpl.
    split; [by apply updateStudentList_lookup |].
    rewrite Hid. by apply with_id_lookup_id_Some.
  - intros Hdup. simpl. rewrite ids_app. simpl.
    rewrite (with_id_lookup_id_Some _ _ _ Hv).
    intros (_ & Hdisj & _)%NoDup_app. apply (Hdisj _ Hdup). left.
Qed.

Lemma payload_id_overrides_witness :
  let s := initialState [Sample.ann] in
  ids (allstudents (addNewStudent "2" Sample.ann s))
  = [Some (VStr "1"); Some (VStr "1")] ∧
  ids (allstudents (saveEditedStudent "1" (with_id "9" Sample.bob) s))
  = [Some (VStr "9")] ∧
  ¬ NoDup (ids (allstudents (addNewStudent "2" Sample.ann s))).
Proof.
  cbv zeta. split; [vm_compute; reflexivity |].
  split; [vm_compute; reflexivity |].
  apply (payload_id_overrides "2" "1" (VStr "1") Sample.ann
           (initialState [Sample.ann])).
  - vm_compute. reflexivity.
  - vm_compute. left.
Defined.


(** * Further properties of the slice *)

(** ** More on strings *)

Section more_strings.



Lemma lower_ascii_idemp (c : ascii) : lower_ascii (lower_ascii c) = lower_ascii c.
Proof. destruct c as [[] [] [] [] [] [] [] []]; reflexivity. Qed.

Lemma toLowerCase_idemp (s : string) : toLowerCase (toLowerCase s) = toLowerCase s.
Proof.
  induction s as [|c s IH]; simpl; [done |].
  by rewrite lower_ascii_idemp, IH.
Qed.




End more_strings.

(** ** More on the search *)

Section more_search.
Implicit Types (r : Students) (term : string) (s : StudentState).



Lemma array_some_throw_inv {A} (g : A → result bool) (l : list A) e :
  array_some g l = Throw e → ∃ x, x ∈ l ∧ g x = Throw TypeError.
Proof.
  induction l as [|x l IH]; simpl; [done |].
  destruct (g x) as [[|]|e'] eqn:Hx; simpl; [done | |].
  - intros (y & Hy & Hgy)%IH. exists y. split; [by right | done].
  - intros _. exists x. split; [left | by rewrite <- (exn_unique e')].
Qed.

Lemma array_filter_throw_inv {A} (g : A → result bool) (l : list A) e :
  array_filter g l = Throw e → ∃ x, x ∈ l ∧ g x = Throw TypeError.
Proof.
  induction l as [|x l IH]; simpl; [done |].
  destruct (g x) as [b|e'] eqn:Hx; simpl.
  - destruct (array_filter g l) as [r|e''] eqn:Hr; simpl; [done |].
    intros [= <-]. destruct (IH eq_refl) as (y & Hy & Hgy).
    exists y. split; [by right | done].
  - intros _. exists x. split; [left | by rewrite <- (exn_unique e')].
Qed.

Lemma searchStudents_throw_inv term s e :
  searchStudents term s = Throw e →
  ∃ r f, r ∈ allstudents s ∧ f ∈ search_fields ∧
         ∀ v, r !! f ≠ Some (VStr v).
Proof.
  unfold searchStudents.
  destruct (array_filter _ _) as [l|e'] eqn:Hl; simpl; [done |]. intros _.
  apply array_filter_throw_inv in Hl as (r & Hr & Hm).
  apply array_some_throw_inv in Hm as (f & Hf & Hfi).
  exists r, f. split; [done |]. split; [done |].
  intros v Hv. unfold field_includes in Hfi. by rewrite Hv in Hfi.
Qed.

End more_search.



(** X2. A search reads the collection only, never the previous filtered
    view: searching a second term after a first gives the result of
    searching the second term directly, and repeating a search changes
    nothing. *)
Theorem search_restarts_from_collection (t1 t2 : string)
    (s s1 : StudentState) :
  searchStudents t1 s = Ok s1 →
  searchStudents t2 s1 = searchStudents t2 s ∧
  searchStudents t1 s1 = Ok s1.
Proof.
  intros H1. destruct (searchStudents_ok _ _ _ H1) as (Hall & Hcur & _).
  assert (∀ t, searchStudents t s1 = searchStudents t s) as Heq.
  { intros t. unfold searchStudents. by rewrite Hall, Hcur. }
  split; [apply Heq | by rewrite Heq].
Qed.

Lemma search_restarts_from_collection_witness :
  searchStudents "an" (mkState [] [Sample.ann] None)
  = searchStudents "an" (initialState [Sample.ann]) ∧
  searchStudents "zz" (mkState [] [Sample.ann] None)
  = Ok (mkState [] [Sample.ann] None).
Proof.
  apply (search_restarts_from_collection "zz" "an"
           (initialState [Sample.ann]) (mkState [] [Sample.ann] None)).
  vm_compute. reflexivity.
Defined.

(** X3. The search does not depend on the case of the term: two terms
    with the same lower-case form give the same result, and so do a term
    and its lower-case form. *)
Theorem search_ignores_case_of_term (t1 t2 : string) (s : StudentState) :
  toLowerCase t1 = toLowerCase t2 →
  searchStudents t1 s = searchStudents t2 s ∧
  searchStudents (toLowerCase t1) s = searchStudents t2 s.
Proof.
  intros Heq. unfold searchStudents.
  by rewrite toLowerCase_idemp, Heq.
Qed.

Lemma search_ignores_case_of_term_witness :
  searchStudents "AN" (initialState [Sample.ann])
  = searchStudents "an" (initialState [Sample.ann]).
Proof.
  apply (search_ignores_case_of_term "AN" "an" (initialState [Sample.ann])).
  vm_compute. reflexivity.
Defined.



(** X5. The search throws only when some record of the collection has one
    of the three searched properties missing or not a string; the store
    then keeps its state. *)
Theorem search_throws_only_on_non_string (term : string) (s : StudentState)
    (e : exn) :
  reducer s (SearchStudents term) = Throw e →
  (∃ r f, r ∈ allstudents s ∧ f ∈ search_fields ∧
          ∀ v, r !! f ≠ Some (VStr v)) ∧
  dispatch s (SearchStudents term) = s.
Proof.
  simpl. intros H. split; [by apply (searchStudents_throw_inv term s e) |].
  unfold dispatch. simpl. by rewrite H.
Qed.

Lemma search_throws_only_on_non_string_witness :
  (∃ r f, r ∈ allstudents Sample.with_bo ∧ f ∈ search_fields ∧
          ∀ v, r !! f ≠ Some (VStr v)) ∧
  dispatch Sample.with_bo (SearchStudents "an") = Sample.with_bo.
Proof.
  apply (search_throws_only_on_non_string "an" Sample.with_bo TypeError).
  vm_compute. reflexivity.
Defined.

(** ** How the reducers compose *)

Section compose.
Implicit Types (l : list Students) (r p input : Students) (id uuid : string)
  (s : StudentState).

Lemma array_find_first {A} (q : A → bool) (l : list A) (x : A) :
  array_find q l = Some x →
  ∃ i, l !! i = Some x ∧ q x = true ∧
       ∀ j y, (j < i)%nat → l !! j = Some y → q y = false.
Proof.
  induction l as [|a l IH]; simpl; [done |].
  destruct (q a) eqn:Ha.
  - intros [= <-]. exists 0%nat. split; [done |]. split; [done |]. lia.
  - intros (i & Hi & Hx & Hbefore)%IH. exists (S i).
    split; [done |]. split; [done |].
    intros [|j] y Hj Hy; simpl in Hy; [by injection Hy as <- |].
    apply (Hbefore j); [lia | done].
Qed.

Lemma array_find_app_absent {A} (q : A → bool) (l1 l2 : list A) :
  (∀ x, x ∈ l1 → q x = false) →
  array_find q (l1 ++ l2) = array_find q l2.
Proof.
  induction l1 as [|a l1 IH]; intros H; simpl; [done |].
  rewrite (H a) by left. apply IH. intros x Hx. apply H. by right.
Qed.

Lemma array_find_app_present {A} (q : A → bool) (l1 l2 : list A) (x : A) :
  array_find q l1 = Some x → array_find q (l1 ++ l2) = Some x.
Proof.
  induction l1 as [|a l1 IH]; simpl; [done |].
  destruct (q a); [done | apply IH].
Qed.

Lemma id_present_ids id l :
  id_present id l ↔ Some (VStr id) ∈ ids l.
Proof.
  unfold id_present, ids. rewrite list_elem_of_fmap. split.
  - intros (r & Hr & Hid%id_is_true). by exists r.
  - intros (r & Hid & Hr). exists r. split; [done |]. by apply id_is_true.
Qed.

Lemma filter_id_app_new l uuid p :
  p !! "_id" = None →
  (∀ r, r ∈ l → id_is uuid r = false) →
  filter (λ r, id_is uuid r = false) (l ++ [with_id uuid p]) = l.
Proof.
  intros Hp Habs. rewrite filter_app, (filter_id_absent l uuid Habs).
  rewrite filter_cons_False, filter_nil, app_nil_r; [done |].
  by rewrite id_is_with_id.
Qed.

Lemma updateStudentList_twice l id p1 p2 :
  p1 !! "_id" = None →
  updateStudentList (updateStudentList l id p1) id p2
  = updateStudentList l id p2.
Proof.
  intros Hp1. unfold updateStudentList. rewrite <- list_fmap_compose.
  apply list_fmap_ext. intros i r _. simpl.
  destruct (id_is id r) eqn:E; [by rewrite id_is_with_id | by rewrite E].
Qed.

Lemma id_is_with_id_ne id1 id2 p :
  id1 ≠ id2 → p !! "_id" = None → id_is id1 (with_id id2 p) = false.
Proof.
  intros Hne Hp. apply id_is_false.
  rewrite with_id_lookup_id_None by done. congruence.
Qed.

Lemma id_is_exclusive id1 id2 r :
  id1 ≠ id2 → id_is id1 r = true → id_is id2 r = false.
Proof.
  intros Hne H1%id_is_true. apply id_is_false. rewrite H1. congruence.
Qed.

Lemma updateStudentList_comm l id1 id2 p1 p2 :
  id1 ≠ id2 → p1 !! "_id" = None → p2 !! "_id" = None →
  updateStudentList (updateStudentList l id2 p2) id1 p1
  = updateStudentList (updateStudentList l id1 p1) id2 p2.
Proof.
  intros Hne Hp1 Hp2. unfold updateStudentList.
  rewrite <- !list_fmap_compose. apply list_fmap_ext. intros i r _. simpl.
  destruct (id_is id2 r) eqn:E2; destruct (id_is id1 r) eqn:E1.
  - by rewrite (id_is_exclusive id1 id2 r Hne E1) in E2.
  - by rewrite ?id_is_with_id_ne, ?E1, ?E2 by done.
  - by rewrite ?id_is_with_id_ne, ?E1, ?E2 by done.
  - by rewrite ?E1, ?E2.
Qed.

Lemma updateStudentList_ids l id input :
  input !! "_id" = None → ids (updateStudentList l id input) = ids l.
Proof.
  intros Hin. unfold ids, updateStudentList. rewrite <- list_fmap_compose.
  apply list_fmap_ext. intros i r _. simpl.
  destruct (id_is id r) eqn:E; [|done].
  rewrite with_id_lookup_id_None by done. symmetry. by apply id_is_true.
Qed.

Lemma filter_updateStudentList l id input :
  input !! "_id" = None →
  filter (λ r, id_is id r = false) (updateStudentList l id input)
  = filter (λ r, id_is id r = false) l.
Proof.
  intros Hin. induction l as [|r l IH]; [done |].
  unfold updateStudentList in *. rewrite fmap_cons, !filter_cons, IH.
  destruct (id_is id r) eqn:E.
  - rewrite id_is_with_id by done. by rewrite !decide_False by done.
  - rewrite E. by rewrite !decide_True by done.
Qed.

Lemma filter_id_comm l id1 id2 :
  filter (λ r, id_is id1 r = false) (filter (λ r, id_is id2 r = false) l)
  = filter (λ r, id_is id2 r = false) (filter (λ r, id_is id1 r = false) l).
Proof.
  rewrite !list_filter_filter. apply list_filter_iff. intros r. tauto.
Qed.

Lemma ids_filter_sublist l id :
  ids (filter (λ r, id_is id r = false) l) `sublist_of` ids l.
Proof. unfold ids. apply fmap_sublist, sublist_filter. Qed.

End compose.

(** X6. Select leaves the collection and the filtered view as they are.
    The selection becomes the first record of the collection whose [_id]
    is the id (every record before it has another [_id]), and [null]
    exactly when no record of the collection has the id. *)
Theorem selectedStudent_finds_first (id : string) (s : StudentState) :
  let s' := selectedStudent id s in
  allstudents s' = allstudents s ∧
  filteredstudents s' = filteredstudents s ∧
  match currentStudent s' with
  | Some r =>
      ∃ i, allstudents s !! i = Some r ∧ id_is id r = true ∧
           ∀ j r', (j < i)%nat → allstudents s !! j = Some r' →
                   id_is id r' = false
  | None => ¬ id_present id (allstudents s)
  end.
Proof.
  cbv zeta. split; [done |]. split; [done |]. simpl.
  destruct (array_find (id_is id) (allstudents s)) as [r|] eqn:Hf.
  - by apply array_find_first.
  - apply not_id_present. by apply array_find_None.
Qed.

(** X7. Removing the record that was just added restores the state: in a
    state whose filtered view is a subsequence of the collection, if the
    payload has no [_id] and no record has the generated id, remove of
    that id after add gives back the state before the add. *)
Theorem delete_undoes_add (uuid : string) (payload : Students)
    (s : StudentState) :
  view_inv s →
  payload !! "_id" = None →
  ¬ id_present uuid (allstudents s) →
  deleteStudent uuid (addNewStudent uuid payload s) = s.
Proof.
  intros Hinv Hp Hnot. pose proof (proj1 (not_id_present _ _) Hnot) as Habs.
  unfold deleteStudent, addNewStudent. simpl.
  rewrite (filter_id_app_new (allstudents s)) by done.
  rewrite (filter_id_app_new (filteredstudents s)).
  - by destruct s.
  - done.
  - intros r Hr. apply Habs. by apply (elem_of_sublist _ _ _ Hr).
Qed.

Lemma delete_undoes_add_witness :
  deleteStudent "2" (addNewStudent "2" Sample.bo (initialState [Sample.ann]))
  = initialState [Sample.ann].
Proof.
  apply (delete_undoes_add "2" Sample.bo (initialState [Sample.ann])).
  - apply initialState_inv.
  - vm_compute. reflexivity.
  - intros [r [Hr Hid]]. apply list_elem_of_singleton in Hr as ->.
    vm_compute in Hid. discriminate Hid.
Defined.

(** X8. Selecting the generated id after an add whose payload has no
    [_id]: when no record had that id, the selection is the new record;
    when a record already had it, the selection is the older record, as if
    nothing had been added. *)
Theorem select_after_add (uuid : string) (payload : Students)
    (s : StudentState) :
  payload !! "_id" = None →
  (¬ id_present uuid (allstudents s) →
   currentStudent (selectedStudent uuid (addNewStudent uuid payload s))
   = Some (with_id uuid payload)) ∧
  (id_present uuid (allstudents s) →
   currentStudent (selectedStudent uuid (addNewStudent uuid payload s))
   = currentStudent (selectedStudent uuid s)).
Proof.
  intros Hp. simpl. split.
  - intros Hnot. pose proof (proj1 (not_id_present _ _) Hnot) as Habs.
    rewrite array_find_app_absent by done. simpl.
    by rewrite id_is_with_id.
  - intros Hpres.
    destruct (array_find (id_is uuid) (allstudents s)) as [r|] eqn:Hf.
    + by apply array_find_app_present.
    + exfalso. revert Hpres. apply not_id_present. by apply array_find_None.
Qed.

Lemma select_after_add_witness :
  currentStudent (selectedStudent "2"
    (addNewStudent "2" Sample.bo (initialState [Sample.ann])))
  = Some (with_id "2" Sample.bo) ∧
  currentStudent (selectedStudent "1"
    (addNewStudent "1" Sample.bo (initialState [Sample.ann])))
  = currentStudent (selectedStudent "1" (initialState [Sample.ann])).
Proof.
  split.
  - apply (select_after_add "2" Sample.bo (initialState [Sample.ann]));
      [vm_compute; reflexivity |].
    intros [r [Hr Hid]]. apply list_elem_of_singleton in Hr as ->.
    vm_compute in Hid. discriminate Hid.
  - apply (select_after_add "1" Sample.bo (initialState [Sample.ann]));
      [vm_compute; reflexivity |].
    exists Sample.ann. split; [simpl; left | vm_compute; reflexivity].
Defined.

(** X9. After remove of an id no record of the collection or of the
    filtered view has the id, and selecting the id yields [null]. *)
Theorem select_after_delete (id : string) (s : StudentState) :
  ¬ id_present id (allstudents (deleteStudent id s)) ∧
  ¬ id_present id (filteredstudents (deleteStudent id s)) ∧
  currentStudent (selectedStudent id (deleteStudent id s)) = None.
Proof.
  assert (∀ l : list Students,
            ∀ r, r ∈ filter (λ r, id_is id r = false) l → id_is id r = false)
    as Hgone by (intros l r Hr; by apply list_elem_of_filter in Hr as [? _]).
  split; [apply not_id_present, Hgone |].
  split; [apply not_id_present, Hgone |].
  simpl. apply array_find_None, Hgone.
Qed.

(** X10. The last edit wins: two edits of the same id, the first with a
    payload that has no [_id], give the state of the second edit alone. *)
Theorem last_edit_wins (id : string) (p1 p2 : Students) (s : StudentState) :
  p1 !! "_id" = None →
  saveEditedStudent id p2 (saveEditedStudent id p1 s)
  = saveEditedStudent id p2 s.
Proof.
  intros Hp1. unfold saveEditedStudent. simpl.
  by rewrite !updateStudentList_twice.
Qed.

Lemma last_edit_wins_witness :
  saveEditedStudent "1" Sample.bob
    (saveEditedStudent "1" Sample.annie (initialState [Sample.ann]))
  = saveEditedStudent "1" Sample.bob (initialState [Sample.ann]).
Proof.
  apply (last_edit_wins "1" Sample.annie Sample.bob (initialState [Sample.ann])).
  vm_compute. reflexivity.
Defined.

(** X11. Edits of two different ids, with payloads that have no [_id],
    commute. *)
Theorem edits_of_different_ids_commute (id1 id2 : string) (p1 p2 : Students)
    (s : StudentState) :
  id1 ≠ id2 →
  p1 !! "_id" = None →
  p2 !! "_id" = None →
  saveEditedStudent id1 p1 (saveEditedStudent id2 p2 s)
  = saveEditedStudent id2 p2 (saveEditedStudent id1 p1 s).
Proof.
  intros Hne Hp1 Hp2. unfold saveEditedStudent. simpl.
  by rewrite !(updateStudentList_comm _ id1 id2 p1 p2).
Qed.

Lemma edits_of_different_ids_commute_witness :
  let s := initialState [Sample.ann; with_id "2" Sample.bob] in
  saveEditedStudent "1" Sample.annie (saveEditedStudent "2" Sample.bo s)
  = saveEditedStudent "2" Sample.bo (saveEditedStudent "1" Sample.annie s).
Proof.
  apply (edits_of_different_ids_commute "1" "2" Sample.annie Sample.bo
           (initialState [Sample.ann; with_id "2" Sample.bob]));
    [discriminate | vm_compute; reflexivity | vm_compute; reflexivity].
Defined.

(** X12. An edit whose payload has no [_id] changes no [_id]: the [_id]s of
    the collection and of the filtered view, in order, are the same before
    and after. *)
Theorem edit_keeps_ids (id : string) (input : Students) (s : StudentState) :
  input !! "_id" = None →
  ids (allstudents (saveEditedStudent id input s)) = ids (allstudents s) ∧
  ids (filteredstudents (saveEditedStudent id input s))
  = ids (filteredstudents s).
Proof. intros Hin. simpl. by rewrite !updateStudentList_ids. Qed.

Lemma edit_keeps_ids_witness :
  ids (allstudents (saveEditedStudent "1" Sample.annie (initialState [Sample.ann])))
  = ids (allstudents (initialState [Sample.ann])).
Proof.
  apply (edit_keeps_ids "1" Sample.annie (initialState [Sample.ann])).
  vm_compute. reflexivity.
Defined.

(** X13. Removes commute, and an edit followed by the removal of the same
    id is the removal alone when the payload has no [_id]. *)
Theorem delete_absorbs_edit_and_commutes (id id' : string) (input : Students)
    (s : StudentState) :
  input !! "_id" = None →
  deleteStudent id (saveEditedStudent id input s) = deleteStudent id s ∧
  deleteStudent id (deleteStudent id' s) = deleteStudent id' (deleteStudent id s).
Proof.
  intros Hin. unfold deleteStudent, saveEditedStudent. simpl. split.
  - by rewrite !filter_updateStudentList.
  - by rewrite (filter_id_comm (allstudents s)),
               (filter_id_comm (filteredstudents s)).
Qed.

Lemma delete_absorbs_edit_and_commutes_witness :
  let s := initialState [Sample.ann; with_id "2" Sample.bob] in
  deleteStudent "1" (saveEditedStudent "1" Sample.annie s) = deleteStudent "1" s ∧
  deleteStudent "1" (deleteStudent "2" s) = deleteStudent "2" (deleteStudent "1" s).
Proof.
  apply (delete_absorbs_edit_and_commutes "1" "2" Sample.annie
           (initialState [Sample.ann; with_id "2" Sample.bob])).
  vm_compute. reflexivity.
Defined.

(** ** Invariants along a run *)

Section runs.
Implicit Types (s : StudentState) (a : Action) (actions : list Action).

Lemma dispatch_search_allstudents term s :
  allstudents (dispatch s (SearchStudents term)) = allstudents s.
Proof.
  unfold dispatch. simpl.
  destruct (searchStudents term s) as [s'|e] eqn:H; [|done].
  by destruct (searchStudents_ok _ _ _ H) as [-> _].
Qed.

Lemma dispatch_ids_NoDup s a :
  NoDup (ids (allstudents s)) →
  match a with
  | AddNewStudent uuid payload =>
      payload !! "_id" = None ∧ ¬ id_present uuid (allstudents s)
  | SaveEditedStudent _ student => student !! "_id" = None
  | _ => True
  end →
  NoDup (ids (allstudents (dispatch s a))).
Proof.
  intros Hnd Ha. destruct a as [term|id| |uuid payload|id student|id].
  - by rewrite dispatch_search_allstudents.
  - done.
  - done.
  - destruct Ha as [Hp Hfresh]. unfold dispatch. simpl.
    rewrite ids_app. simpl. rewrite with_id_lookup_id_None by done.
    apply NoDup_app. split; [done |]. split; [|apply NoDup_singleton].
    intros o Ho ->%list_elem_of_singleton. by apply Hfresh, id_present_ids.
  - unfold dispatch. simpl. by rewrite updateStudentList_ids.
  - unfold dispatch. simpl.
    by apply (sublist_NoDup _ (ids (allstudents s))), ids_filter_sublist.
Qed.

Lemma searchable_with_id id (p : Students) :
  searchable p → searchable (with_id id p).
Proof.
  intros Hp f Hf. destruct (Hp f Hf) as [v Hv]. exists v.
  rewrite with_id_lookup_ne; [done |].
  unfold search_fields in Hf.
  repeat (apply elem_of_cons in Hf as [-> | Hf]); try discriminate.
  by apply elem_of_nil in Hf.
Qed.

Lemma dispatch_searchable s a :
  searchable_state s → searchable_action a → searchable_state (dispatch s a).
Proof.
  unfold searchable_state. intros Hs Ha.
  destruct a as [term|id| |uuid payload|id student|id].
  - by rewrite dispatch_search_allstudents.
  - done.
  - done.
  - unfold dispatch. simpl. intros r [Hr | ->%list_elem_of_singleton]%elem_of_app;
      [by apply Hs | by apply searchable_with_id].
  - unfold dispatch, updateStudentList. simpl.
    intros r (r0 & -> & Hr0)%list_elem_of_fmap.
    destruct (id_is id r0); [by apply searchable_with_id | by apply Hs].
  - unfold dispatch. simpl. intros r [_ Hr]%list_elem_of_filter. by apply Hs.
Qed.

End runs.

(** X14. The [_id]s of the collection stay pairwise distinct along any run
    of actions, searches, selections, edits and removes included, as long
    as no payload has an [_id] and the identifier generated for each add is
    not an [_id] of the collection at that moment. *)
Theorem ids_distinct_along_run (actions : list Action) (s : StudentState) :
  NoDup (ids (allstudents s)) →
  ids_fresh actions s →
  NoDup (ids (allstudents (run actions s))).
Proof.
  revert s. induction actions as [|a actions IH]; intros s Hnd Hfresh; [done |].
  destruct Hfresh as [Ha Hrest].
  change (run (a :: actions) s) with (run actions (dispatch s a)).
  apply IH; [|done]. by apply dispatch_ids_NoDup.
Qed.

Lemma ids_distinct_along_run_witness :
  NoDup (ids (allstudents
    (run [AddNewStudent "2" Sample.bob; SearchStudents "an";
          SaveEditedStudent "1" Sample.annie; DeleteStudent "2";
          AddNewStudent "2" Sample.bo]
         (initialState [Sample.ann])))).
Proof.
  apply ids_distinct_along_run.
  - vm_compute. apply NoDup_singleton.
  - assert (∀ uuid (l : list Students),
              Some (VStr uuid) ∉ ids l → ¬ id_present uuid l) as Hfresh
      by (intros uuid l H Hp; by apply H, id_present_ids).
    simpl. repeat split; try (vm_compute; reflexivity); apply Hfresh;
      vm_compute; intros H;
      repeat (apply elem_of_cons in H as [H | H]; [discriminate H |]);
      by apply elem_of_nil in H.
Defined.

(** X15. Starting from a collection whose records all carry the three
    searched properties as strings, after any run of actions whose add and
    edit payloads carry them too, every record still carries them and a
    search, whatever the term, returns without throwing. *)
Theorem search_never_throws_along_run (actions : list Action)
    (s : StudentState) :
  searchable_state s →
  Forall searchable_action actions →
  searchable_state (run actions s) ∧
  ∀ term, ∃ s', reducer (run actions s) (SearchStudents term) = Ok s'.
Proof.
  intros Hs Hacts.
  assert (searchable_state (run actions s)) as Hfinal.
  { revert s Hs. induction Hacts as [|a actions Ha _ IH]; intros s Hs; [done |].
    change (run (a :: actions) s) with (run actions (dispatch s a)).
    by apply IH, dispatch_searchable. }
  split; [done |]. intros term. by apply searchStudents_total.
Qed.

Lemma search_never_throws_along_run_witness :
  ∃ s',
    reducer (run [AddNewStudent "2" Sample.bob; DeleteStudent "1"]
                 (initialState [Sample.ann]))
            (SearchStudents "bo") = Ok s'.
Proof.
  cut (∀ term, ∃ s',
         reducer (run [AddNewStudent "2" Sample.bob; DeleteStudent "1"]
                      (initialState [Sample.ann]))
                 (SearchStudents term) = Ok s'); [intros H; apply H |].
  assert (∀ r : Students,
            (∃ a b c, r !! "firstName" = Some (VStr a) ∧
                      r !! "lastName" = Some (VStr b) ∧
                      r !! "collegeName" = Some (VStr c)) → searchable r)
    as Hsearchable.
  { intros r (a & b & c & Ha & Hb & Hc) f Hf. unfold search_fields in Hf.
    repeat (apply elem_of_cons in Hf as [-> | Hf]);
      [by eexists | by eexists | by eexists | by apply elem_of_nil in Hf]. }
  apply (search_never_throws_along_run
           [AddNewStudent "2" Sample.bob; DeleteStudent "1"]
           (initialState [Sample.ann])).
  - intros r ->%list_elem_of_singleton. apply Hsearchable.
    by exists "Ann", "Lee", "X".
  - repeat constructor. apply Hsearchable. by exists "Bob", "Lee", "X".
Defined.

(** * The student table *)

Section table.
Import StudentTable.



Lemma array_map_ok {A B} (g : A → result B) (l : list A) (rows : list B) :
  array_map g l = Ok rows → Forall2 (λ x y, g x = Ok y) l rows.
Proof.
  revert rows. induction l as [|x l IH]; simpl; intros rows.
  - intros [= <-]. constructor.
  - destruct (g x) as [y|e] eqn:Hx; simpl; [|done].
    destruct (array_map g l) as [r|e] eqn:Hr; simpl; [|done].
    intros [= <-]. constructor; [done | by apply IH].
Qed.

Lemma array_map_total {A B} (g : A → result B) (l : list A) :
  (∀ x, x ∈ l → ∃ y, g x = Ok y) → ∃ rows, array_map g l = Ok rows.
Proof.
  induction l as [|x l IH]; intros H; simpl; [by eexists |].
  destruct (H x) as [y ->]; [left |]. simpl.
  destruct IH as [r ->]; [intros z Hz; apply H; by right |].
  simpl. by eexists.
Qed.

Lemma array_map_snoc {A B} (g : A → result B) (l : list A) (x : A)
    (rows : list B) (y : B) :
  array_map g l = Ok rows → g x = Ok y →
  array_map g (l ++ [x]) = Ok (rows ++ [y]).
Proof.
  revert rows. induction l as [|a l IH]; simpl; intros rows.
  - intros [= <-] ->. done.
  - destruct (g a) as [b|e]; simpl; [|done].
    destruct (array_map g l) as [r|e]; simpl; [|done].
    intros [= <-] Hx. by rewrite (IH r eq_refl Hx).
Qed.

Lemma row_of_id (r : Students) (row : Row) :
  row_of r = Ok row → id row = r !! "_id".
Proof.
  unfold row_of.
  destruct (capitalizeFirstLetter (r !! "lastName")); simpl; [|done].
  destruct (capitalizeFirstLetter (r !! "firstName")); simpl; [|done].
  by intros [= <-].
Qed.

Lemma capitalizeFirstLetter_total (o : option value) :
  (∀ n, o = Some (VNum n) → n = 0%Z) → ∃ out, capitalizeFirstLetter o = Ok out.
Proof.
  intros H. destruct o as [[[|c v]|n|]|]; simpl; try by eexists.
  rewrite (H n eq_refl). by eexists.
Qed.

End table.


(** X17. When no record of the view has a number other than 0 as
    [lastName] or [firstName], [rowsForDataGrid] returns one row per
    record, in reverse order: the [id]s of the rows are the [_id]s of the
    view read backwards. *)
Theorem rowsForDataGrid_reverses (studentsData : list Students) :
  (∀ r f n, r ∈ studentsData → f = "lastName" ∨ f = "firstName" →
            r !! f = Some (VNum n) → n = 0%Z) →
  ∃ rows,
    StudentTable.rowsForDataGrid studentsData = Ok rows ∧
    length rows = length studentsData ∧
    StudentTable.id <$> rows = reverse (ids studentsData).
Proof.
  intros Hnames. unfold StudentTable.rowsForDataGrid.
  destruct (array_map_total StudentTable.row_of studentsData) as [rows Hrows].
  - intros r Hr. unfold StudentTable.row_of.
    destruct (capitalizeFirstLetter_total (r !! "lastName")) as [l ->];
      [intros n; apply (Hnames r "lastName" n Hr); by left |].
    destruct (capitalizeFirstLetter_total (r !! "firstName")) as [f ->];
      [intros n; apply (Hnames r "firstName" n Hr); by right |].
    simpl. by eexists.
  - rewrite Hrows. simpl. eexists. split; [done |].
    apply array_map_ok in Hrows.
    split; [rewrite length_reverse; symmetry; by apply (Forall2_length _ _ _ Hrows) |].
    rewrite fmap_reverse. f_equal. unfold ids. clear Hnames.
    induction Hrows as [|r row l rows Hrow _ IH]; [done |].
    rewrite !fmap_cons. f_equal; [by apply row_of_id | apply IH].
Qed.

Lemma rowsForDataGrid_reverses_witness :
  ∃ rows,
    StudentTable.rowsForDataGrid [Sample.ann; with_id "2" Sample.bo] = Ok rows ∧
    length rows = 2%nat ∧
    StudentTable.id <$> rows = [Some (VStr "2"); Some (VStr "1")].
Proof.
  apply (rowsForDataGrid_reverses [Sample.ann; with_id "2" Sample.bo]).
  intros r f n Hr Hf Hn. exfalso.
  repeat (apply elem_of_cons in Hr as [-> | Hr]);
    [| | by apply elem_of_nil in Hr];
    destruct Hf as [-> | ->]; vm_compute in Hn; discriminate Hn.
Defined.

(** X18. The student just added is the first row of the grid: if the rows
    of the filtered view were [rows] and the new record gives the row
    [row], the rows of the filtered view after the add are [row :: rows]. *)
Theorem added_student_is_first_row (uuid : string) (payload : Students)
    (s : StudentState) (rows : list StudentTable.Row) (row : StudentTable.Row) :
  StudentTable.rowsForDataGrid (filteredstudents s) = Ok rows →
  StudentTable.row_of (with_id uuid payload) = Ok row →
  StudentTable.rowsForDataGrid (filteredstudents (addNewStudent uuid payload s))
  = Ok (row :: rows).
Proof.
  unfold StudentTable.rowsForDataGrid. simpl.
  destruct (array_map StudentTable.row_of (filteredstudents s)) as [rs|e] eqn:Hrs;
    simpl; [|done].
  intros [= <-] Hrow. rewrite (array_map_snoc _ _ _ _ _ Hrs Hrow). simpl.
  by rewrite reverse_snoc.
Qed.

Lemma added_student_is_first_row_witness :
  ∃ row rows,
    StudentTable.name row = "Lee Bob" ∧
    StudentTable.rowsForDataGrid
      (filteredstudents (addNewStudent "2" Sample.bob (initialState [Sample.ann])))
    = Ok (row :: rows).
Proof.
  eexists _, _. split; [|
    apply (added_student_is_first_row "2" Sample.bob (initialState [Sample.ann]));
    vm_compute; reflexivity].
  reflexivity.
Defined.

(** * The form *)

Section form.
Import FormModel.
Implicit Types (formData : gmap string string) (student : Students).

Lemma student_of_id formData : student_of formData !! "_id" = None.
Proof. vm_compute. reflexivity. Qed.

Lemma student_of_checked formData f :
  f ∈ checked_fields.*1 → student_of formData !! f = Some (get formData f).
Proof.
  unfold checked_fields. simpl. intros Hf.
  repeat (apply elem_of_cons in Hf as [-> | Hf]);
    [vm_compute; reflexivity .. | by apply elem_of_nil in Hf].
Qed.

Lemma student_of_search_field formData f :
  f ∈ search_fields → student_of formData !! f = Some (get formData f).
Proof.
  unfold search_fields. intros Hf.
  repeat (apply elem_of_cons in Hf as [-> | Hf]);
    [vm_compute; reflexivity .. | by apply elem_of_nil in Hf].
Qed.

Lemma get_empty formData f :
  get formData f = VStr "" ↔ formData !! f = Some "".
Proof.
  unfold get. destruct (formData !! f) as [v|]; split; try done.
  - by intros [= ->].
  - by intros [= ->].
Qed.

Lemma has_errors_newErrors student :
  has_errors (newErrors student) = true ↔
  ∃ f, f ∈ checked_fields.*1 ∧ student !! f = Some (VStr "").
Proof.
  unfold newErrors. induction checked_fields as [|[f msg] l IH]; simpl.
  - split; [done | intros (f & Hf & _); by apply elem_of_nil in Hf].
  - rewrite orb_true_iff, IH. split.
    + intros [H | (f' & Hf' & Hs)].
      * exists f. split; [left |].
        simpl in H.
        destruct (bool_decide (student !! f = Some (VStr ""))) eqn:E;
          [by apply bool_decide_eq_true in E |
           by apply bool_decide_eq_true in H].
      * exists f'. split; [by right | done].
    + intros (f' & [-> | Hf']%elem_of_cons & Hs).
      * left. simpl. rewrite (bool_decide_eq_true_2 _ Hs).
        by apply bool_decide_eq_true_2.
      * right. by exists f'.
Qed.

Lemma submit_action_None id uuid formData :
  submit_action id uuid formData = None ↔
  ∃ f, f ∈ checked_fields.*1 ∧ formData !! f = Some "".
Proof.
  unfold submit_action.
  destruct (has_errors (newErrors (student_of formData))) eqn:E.
  - split; [intros _ | done].
    apply has_errors_newErrors in E as (f & Hf & Hs). exists f.
    split; [done |]. rewrite student_of_checked in Hs by done.
    apply get_empty. congruence.
  - split; [by destruct (truthy id) |].
    intros (f & Hf & Hs). assert (has_errors (newErrors (student_of formData)) = true);
      [|congruence].
    apply has_errors_newErrors. exists f. split; [done |].
    rewrite student_of_checked by done. f_equal. by apply get_empty.
Qed.

Lemma searchable_student_of formData :
  (∀ f, f ∈ search_fields → is_Some (formData !! f)) →
  searchable (student_of formData).
Proof.
  intros H f Hf. destruct (H f Hf) as [v Hv]. exists v.
  rewrite student_of_search_field by done. unfold get. by rewrite Hv.
Qed.

End form.

(** X19. [submitHandler] dispatches an add or an edit and nothing else:
    an edit of the form's id when the id is a non-empty string, an add
    otherwise; the payload it sends never has an [_id]. *)
Theorem submit_dispatches_add_or_edit (id : option string) (uuid : string)
    (formData : gmap string string) (a : Action) :
  FormModel.submit_action id uuid formData = Some a →
  match a with
  | AddNewStudent studentUuid payload =>
      studentUuid = uuid ∧ payload !! "_id" = None ∧
      (id = None ∨ id = Some "")
  | SaveEditedStudent id' student =>
      id = Some id' ∧ id' ≠ "" ∧ student !! "_id" = None
  | _ => False
  end.
Proof.
  unfold FormModel.submit_action.
  destruct (FormModel.has_errors _); [done |].
  destruct id as [[|c rest]|]; simpl; intros [= <-];
    (split; [done |]); (split; [first [done | apply student_of_id] |]);
    first [apply student_of_id | by left | by right].
Qed.

Lemma submit_dispatches_add_or_edit_witness :
  ∃ payload, payload !! "_id" = None ∧
    FormModel.submit_action None "2" {[ "firstName" := "Bo" ]}
    = Some (AddNewStudent "2" payload).
Proof.
  pose proof (submit_dispatches_add_or_edit None "2" {[ "firstName" := "Bo" ]}
                (AddNewStudent "2" (FormModel.student_of {[ "firstName" := "Bo" ]})))
    as H.
  eexists. split; [apply H; vm_compute; reflexivity |].
  vm_compute. reflexivity.
Defined.

(** X20. [submitHandler] leaves the store untouched exactly when one of
    the nine checked controls holds the empty string; [dob] is not checked,
    and a control that is absent from the form raises no error. *)
Theorem submit_rejects_empty_fields (id : option string) (uuid : string)
    (formData : gmap string string) (state : StudentState) :
  (FormModel.submit_action id uuid formData = None ↔
   ∃ f, f ∈ FormModel.checked_fields.*1 ∧ formData !! f = Some "") ∧
  ((∃ f, f ∈ FormModel.checked_fields.*1 ∧ formData !! f = Some "") →
   (FormModel.submitHandler id uuid formData state).2 = state) ∧
  "dob" ∉ FormModel.checked_fields.*1.
Proof.
  split; [apply submit_action_None |]. split.
  - intros H%(submit_action_None id uuid). unfold FormModel.submitHandler.
    simpl. by rewrite H.
  - vm_compute. intros H.
    repeat (apply elem_of_cons in H as [H | H]; [discriminate H |]).
    by apply elem_of_nil in H.
Qed.

Lemma submit_rejects_empty_fields_witness :
  (FormModel.submitHandler None "2" {[ "firstName" := "Bo"; "email" := "" ]}
     (initialState [Sample.ann])).2
  = initialState [Sample.ann].
Proof.
  apply (submit_rejects_empty_fields None "2"
           {[ "firstName" := "Bo"; "email" := "" ]} (initialState [Sample.ann])).
  exists "email". split; [|vm_compute; reflexivity].
  vm_compute. do 3 right. left.
Defined.

(** X21. Submitting a form that has the [firstName], [lastName] and
    [collegeName] controls keeps every record of the collection searchable:
    whether the submission adds, edits or is rejected, a search of the
    resulting store returns without throwing. *)
Theorem submit_keeps_search_working (id : option string) (uuid : string)
    (formData : gmap string string) (state : StudentState) :
  searchable_state state →
  (∀ f, f ∈ search_fields → is_Some (formData !! f)) →
  let state' := (FormModel.submitHandler id uuid formData state).2 in
  searchable_state state' ∧
  ∀ term, ∃ s', reducer state' (SearchStudents term) = Ok s'.
Proof.
  intros Hs Hfd. cbv zeta.
  assert (searchable_state (FormModel.submitHandler id uuid formData state).2)
    as Hfinal.
  { unfold FormModel.submitHandler. simpl.
    destruct (FormModel.submit_action id uuid formData) as [a|] eqn:Ha; [|done].
    apply dispatch_searchable; [done |].
    unfold FormModel.submit_action in Ha.
    destruct (FormModel.has_errors _); [done |].
    destruct (FormModel.truthy id); injection Ha as <-; simpl;
      by apply searchable_student_of. }
  split; [done |]. intros term. by apply searchStudents_total.
Qed.

Lemma submit_keeps_search_working_witness :
  ∃ s',
    reducer (FormModel.submitHandler None "2"
               {[ "firstName" := "Bo"; "lastName" := "Li"; "collegeName" := "Y" ]}
               (initialState [Sample.ann])).2
            (SearchStudents "li") = Ok s'.
Proof.
  cut (∀ term, ∃ s',
         reducer (FormModel.submitHandler None "2"
                    {[ "firstName" := "Bo"; "lastName" := "Li";
                       "collegeName" := "Y" ]}
                    (initialState [Sample.ann])).2
                 (SearchStudents term) = Ok s'); [intros H; apply H |].
  apply (submit_keeps_search_working None "2"
           {[ "firstName" := "Bo"; "lastName" := "Li"; "collegeName" := "Y" ]}
           (initialState [Sample.ann])).
  - intros r ->%list_elem_of_singleton f Hf. unfold search_fields in Hf.
    repeat (apply elem_of_cons in Hf as [-> | Hf]);
      [by eexists | by eexists | by eexists | by apply elem_of_nil in Hf].
  - intros f Hf. unfold search_fields in Hf.
    repeat (apply elem_of_cons in Hf as [-> | Hf]);
      [by eexists | by eexists | by eexists | by apply elem_of_nil in Hf].
Defined.

(** X22. Editing through the form: when the form's id is a non-empty
    string that is the [_id] of a record of the collection and no checked
    control is empty, then after the submission, mounting the form for the
    same id selects the record built from the form, whose [_id] is the id
    and which has no property of the previous record beyond the ten of the
    form. *)
Theorem form_edit_then_select (id uuid : string)
    (formData : gmap string string) (state : StudentState) :
  id ≠ "" →
  id_present id (allstudents state) →
  (∀ f, f ∈ FormModel.checked_fields.*1 → formData !! f ≠ Some "") →
  let state' := (FormModel.submitHandler (Some id) uuid formData state).2 in
  let edited := with_id id (FormModel.student_of formData) in
  currentStudent (FormModel.on_mount (Some id) state') = Some edited ∧
  edited !! "_id" = Some (VStr id) ∧
  ∀ k, k ≠ "_id" → edited !! k = FormModel.student_of formData !! k.
Proof.
  intros Hid Hpres Hvalid. cbv zeta.
  assert (FormModel.submit_action (Some id) uuid formData
          = Some (SaveEditedStudent id (FormModel.student_of formData))) as Hact.
  { destruct (FormModel.submit_action (Some id) uuid formData) as [a|] eqn:Ha.
    - unfold FormModel.submit_action in Ha.
      destruct (FormModel.has_errors _); [done |].
      destruct id; [done | by injection Ha as <-].
    - apply submit_action_None in Ha as (f & Hf & Hempty).
      by destruct (Hvalid f Hf). }
  split; [|split].
  - unfold FormModel.submitHandler, FormModel.on_mount. simpl. rewrite Hact.
    destruct id; [done |]. simpl.
    apply array_find_updateStudentList; [apply student_of_id | done].
  - apply with_id_lookup_id_None, student_of_id.
  - intros k Hk. by apply with_id_lookup_ne.
Qed.

Lemma form_edit_then_select_witness :
  currentStudent
    (FormModel.on_mount (Some "1")
       (FormModel.submitHandler (Some "1") "9" {[ "firstName" := "Annie" ]}
          (initialState [Sample.ann])).2)
  = Some (with_id "1" (FormModel.student_of {[ "firstName" := "Annie" ]})).
Proof.
  apply (form_edit_then_select "1" "9" {[ "firstName" := "Annie" ]}
           (initialState [Sample.ann])).
  - discriminate.
  - exists Sample.ann. split; [simpl; left | vm_compute; reflexivity].
  - intros f Hf Hempty. vm_compute in Hf.
    repeat (apply elem_of_cons in Hf as [-> | Hf];
            [vm_compute in Hempty; discriminate Hempty |]).
    by apply elem_of_nil in Hf.
Defined.

(** * The table after a removal *)

Section table_delete.

Lemma array_map_filter {A B} (g : A → result B) (P : A → Prop) (Q : B → Prop)
    `{!∀ x, Decision (P x), !∀ y, Decision (Q y)} (l : list A) (rows : list B) :
  (∀ x y, g x = Ok y → (P x ↔ Q y)) →
  array_map g l = Ok rows →
  array_map g (filter P l) = Ok (filter Q rows).
Proof.
  intros HPQ. revert rows. induction l as [|x l IH]; simpl; intros rows.
  - by intros [= <-].
  - destruct (g x) as [y|e] eqn:Hx; simpl; [|done].
    destruct (array_map g l) as [r|e] eqn:Hr; simpl; [|done].
    intros [= <-]. rewrite !filter_cons.
    destruct (decide (P x)) as [HP|HP].
    + rewrite decide_True by (by apply (HPQ x y Hx)).
      simpl. by rewrite Hx, (IH r eq_refl).
    + rewrite decide_False by (by rewrite <- (HPQ x y Hx)).
      by apply IH.
Qed.

End table_delete.

(** X23. Confirming a removal in the table takes the rows of that id out
    of the grid and leaves the others in their order: if the grid had the
    rows [rows], after [handleDeleteConfirm] it has the rows of [rows]
    whose [id] is not the removed id. *)
Theorem delete_removes_rows (deleteStudentId : string) (s : StudentState)
    (rows : list StudentTable.Row) :
  StudentTable.rowsForDataGrid (filteredstudents s) = Ok rows →
  StudentTable.rowsForDataGrid
    (filteredstudents (StudentTable.handleDeleteConfirm deleteStudentId s))
  = Ok (filter (λ row, StudentTable.id row ≠ Some (VStr deleteStudentId)) rows).
Proof.
  unfold StudentTable.rowsForDataGrid, StudentTable.handleDeleteConfirm,
    dispatch. simpl.
  destruct (array_map StudentTable.row_of (filteredstudents s)) as [rs|e] eqn:Hrs;
    simpl; [|done].
  intros [= <-].
  rewrite (array_map_filter StudentTable.row_of _
             (λ row, StudentTable.id row ≠ Some (VStr deleteStudentId))
             _ rs); [|  | done].
  - simpl. by rewrite filter_reverse.
  - intros r row Hrow. rewrite (row_of_id r row Hrow). apply id_is_false.
Qed.

Lemma delete_removes_rows_witness :
  ∃ rows,
    StudentTable.rowsForDataGrid
      (filteredstudents
         (StudentTable.handleDeleteConfirm "1"
            (initialState [Sample.ann; with_id "2" Sample.bob])))
    = Ok rows ∧ StudentTable.id <$> rows = [Some (VStr "2")].
Proof.
  eexists. split.
  - apply (delete_removes_rows "1"
             (initialState [Sample.ann; with_id "2" Sample.bob])).
    vm_compute. reflexivity.
  - vm_compute. reflexivity.
Defined.
